(** * create_video.py: a still image and an audio track composed into a video

    A shallow embedding of [src/create_video.py].  The script has one
    procedure, [make_video], which checks two paths, opens the audio with
    moviepy, builds an image clip of the audio's duration, attaches the
    audio, writes the result with fixed codecs and closes whatever it opened.

    The embedding has three layers:
    - [posixpath]: the two functions of Python's [os.path] that the script
      calls ([dirname] and [join]), and [basename], on byte strings;
    - [World]: what the script cannot decide itself (which paths exist, what
      each moviepy call answers);
    - [make_video]: the procedure, in a state-and-exception monad whose state
      holds the three local handle slots, the moviepy objects created so far
      and the trace of observable events. *)

From Stdlib Require Import String Ascii List ZArith Lia Bool SpecFloat.
Import ListNotations.
Local Open Scope string_scope.

(** ** os.path (POSIX flavour) *)

Module posixpath.

Definition sep : ascii := "/"%char.

(** [p.rfind(c)]: the highest index holding [c], or -1. *)
Fixpoint rfind (c : ascii) (p : string) : Z :=
  match p with
  | EmptyString => (-1)%Z
  | String a r =>
      let i := rfind c r in
      if (0 <=? i)%Z then (i + 1)%Z
      else if Ascii.eqb a c then 0%Z else (-1)%Z
  end.

(** [p[:i]] for a non-negative [i]. *)
Definition slice_to (i : Z) (p : string) : string :=
  substring 0 (Z.to_nat i) p.

(** [p == c * len(p)]. *)
Fixpoint all_char (c : ascii) (p : string) : bool :=
  match p with
  | EmptyString => true
  | String a r => Ascii.eqb a c && all_char c r
  end.

(** [p.rstrip(c)]. *)
Fixpoint rstrip (c : ascii) (p : string) : string :=
  match p with
  | EmptyString => EmptyString
  | String a r =>
      match rstrip c r with
      | EmptyString => if Ascii.eqb a c then EmptyString else String a EmptyString
      | r' => String a r'
      end
  end.

(** [p.startswith(c)] and [p.endswith(c)] for a one-character [c]. *)
Definition startswith (c : ascii) (p : string) : bool :=
  match p with
  | EmptyString => false
  | String a _ => Ascii.eqb a c
  end.

Fixpoint endswith (c : ascii) (p : string) : bool :=
  match p with
  | EmptyString => false
  | String a EmptyString => Ascii.eqb a c
  | String _ r => endswith c r
  end.

Definition is_empty (p : string) : bool :=
  match p with EmptyString => true | _ => false end.

(** [posixpath.dirname]:
    i = p.rfind(sep) + 1; head = p[:i];
    if head and head != sep*len(head): head = head.rstrip(sep) *)
Definition dirname (p : string) : string :=
  let i := (rfind sep p + 1)%Z in
  let head := slice_to i p in
  if negb (is_empty head) && negb (all_char sep head)
  then rstrip sep head
  else head.

(** One round of the loop of [posixpath.join]. *)
Definition join_step (path b : string) : string :=
  if startswith sep b then b
  else if is_empty path || endswith sep path then path ++ b
  else path ++ String sep b.

(** [posixpath.join(a, *p)]. *)
Definition join (a : string) (p : list string) : string :=
  fold_left join_step p a.

(** [posixpath.basename]: p[p.rfind(sep) + 1:]. *)
Definition basename (p : string) : string :=
  let i := Z.to_nat (rfind sep p + 1) in
  substring i (String.length p - i) p.

End posixpath.

(** ** Values *)

(** A moviepy object is named by its identity; two variables alias exactly
    when they hold the same [handle]. *)
Definition handle := nat.

(** The exceptions that reach [except Exception].  The two that the script
    raises itself carry their message; [MediaError] stands for any other
    exception that a moviepy call raises.  A moviepy call may also raise
    the first two (a [World] answers with any [exn]). *)
Inductive exn : Type :=
| FileNotFoundError (msg : string)
| ValueError (msg : string)
| MediaError (detail : string).

Inductive result (A : Type) : Type :=
| Ok (a : A)
| Raise (e : exn).
Arguments Ok {A} a.
Arguments Raise {A} e.

(** A Python float is an IEEE 754 binary64 value; [spec_float] holds
    these (and more: nothing below depends on the mantissa's width). *)
Definition float := spec_float.

Definition float_zero : float := S754_zero false.

(** The attributes of a moviepy clip that the script sets or reads:
    the file it was made from, [duration] and [audio]. *)
Record clip : Type := mkClip {
  clip_source : string;
  clip_duration : option float;
  clip_audio : option handle
}.

(** ** The world outside the script *)

(** [image_clip.with_audio(audio_clip)] either raises, or returns a copy
    with the audio set, or sets the audio on the receiver and returns the
    receiver (the case the comment at the last [close] names). *)
Inductive with_audio_answer : Type :=
| WithAudioRaises (e : exn)
| WithAudioCopy
| WithAudioSelf.

Record World : Type := mkWorld {
  (** [os.path.exists(path)] *)
  path_exists : string -> bool;
  (** [AudioFileClip(filename)]: raises, or opens a clip with this
      [duration] attribute *)
  open_audio : string -> result (option float);
  (** [ImageClip(img, duration=d)]: raises ([Some e]) or returns *)
  open_image : string -> float -> option exn;
  (** [self.with_audio(audio)] *)
  attach_audio : handle -> handle -> with_audio_answer;
  (** [self.write_videofile(filename, fps=, codec=, audio_codec=, logger=,
      temp_audiofile=)]: raises ([Some e]) or returns *)
  encode : handle -> string -> Z -> string -> string -> string -> string
           -> option exn
}.

(** ** Observable events *)

(** What [print] writes, one constructor per [print] of the source, with
    the interpolated values as arguments. *)
Inductive message : Type :=
| MsgStarting
| MsgImage (image_path : string)
| MsgAudio (audio_path : string)
| MsgOutput (output_path : string)
| MsgFPS (fps : Z)
| MsgLoadingAudio
| MsgAudioDuration (duration : float)
| MsgProcessingImage
| MsgCombining
| MsgTempAudio (temp_audiofile_path : string)
| MsgWriting (output_path : string)
| MsgCreated (output_path : string)
| MsgError (e : exn).

(** A call into moviepy is recorded with its arguments and its answer. *)
Inductive event : Type :=
| EvPrint (m : message)
| EvPrintExc (e : exn)
| EvAudioFileClip (filename : string) (r : result handle)
| EvImageClip (img : string) (duration : float) (r : result handle)
| EvWithAudio (self audio : handle) (r : result handle)
| EvWriteVideofile (self : handle) (filename : string) (fps : Z)
    (codec audio_codec logger temp_audiofile : string) (r : result unit)
| EvClose (self : handle).

(** ** State and exceptions *)

Record state : Type := mkState {
  audio_clip : option handle;
  image_clip : option handle;
  final_clip : option handle;
  next_handle : handle;
  objects : list (handle * clip);
  trace : list event
}.

Definition M (A : Type) : Type := state -> result A * state.

Definition ret {A} (a : A) : M A := fun s => (Ok a, s).

Definition bind {A B} (c : M A) (k : A -> M B) : M B :=
  fun s =>
    match c s with
    | (Ok a, s') => k a s'
    | (Raise e, s') => (Raise e, s')
    end.

Definition raise {A} (e : exn) : M A := fun s => (Raise e, s).

Declare Scope py_scope.
Delimit Scope py_scope with py.
Notation "x <- c ;; k" := (bind c (fun x => k))
  (at level 61, c at next level, right associativity) : py_scope.
Notation "c ;; k" := (bind c (fun _ => k))
  (at level 61, right associativity) : py_scope.
Local Open Scope py_scope.

(** [try: body  except Exception as e: handler e] *)
Definition try_except {A} (body : M A) (handler : exn -> M A) : M A :=
  fun s =>
    match body s with
    | (Ok a, s') => (Ok a, s')
    | (Raise e, s') => handler e s'
    end.

(** [try: body  finally: final].  The outcome of [body] stands unless
    [final] raises. *)
Definition try_finally {A} (body : M A) (final : M unit) : M A :=
  fun s =>
    match body s with
    | (r, s') =>
        match final s' with
        | (Ok _, s'') => (r, s'')
        | (Raise e, s'') => (Raise e, s'')
        end
    end.

Definition when (b : bool) (c : M unit) : M unit :=
  if b then c else ret tt.

Definition emit (e : event) : M unit :=
  fun s => (Ok tt, mkState (audio_clip s) (image_clip s) (final_clip s)
                     (next_handle s) (objects s) (trace s ++ [e])).

Definition set_audio_clip (v : option handle) : M unit :=
  fun s => (Ok tt, mkState v (image_clip s) (final_clip s)
                     (next_handle s) (objects s) (trace s)).

Definition set_image_clip (v : option handle) : M unit :=
  fun s => (Ok tt, mkState (audio_clip s) v (final_clip s)
                     (next_handle s) (objects s) (trace s)).

Definition set_final_clip (v : option handle) : M unit :=
  fun s => (Ok tt, mkState (audio_clip s) (image_clip s) v
                     (next_handle s) (objects s) (trace s)).

Definition read {A} (f : state -> A) : M A := fun s => (Ok (f s), s).

(** A new object: the next identity, bound to its attributes. *)
Definition new_object (c : clip) : M handle :=
  fun s => (Ok (next_handle s),
            mkState (audio_clip s) (image_clip s) (final_clip s)
              (S (next_handle s)) ((next_handle s, c) :: objects s) (trace s)).

(** An attribute assignment on an existing object. *)
Definition store_object (h : handle) (c : clip) : M unit :=
  fun s => (Ok tt, mkState (audio_clip s) (image_clip s) (final_clip s)
                     (next_handle s) ((h, c) :: objects s) (trace s)).

Fixpoint lookup (h : handle) (objs : list (handle * clip)) : option clip :=
  match objs with
  | [] => None
  | (h', c) :: rest => if Nat.eqb h h' then Some c else lookup h rest
  end.

(** ** The calls the script makes *)

Section Script.

Variable w : World.

Definition print (m : message) : M unit := emit (EvPrint m).

(** [traceback.print_exc()] inside the handler of [e]. *)
Definition print_exc (e : exn) : M unit := emit (EvPrintExc e).

(** [AudioFileClip(filename)] *)
Definition AudioFileClip (filename : string) : M handle :=
  match open_audio w filename with
  | Raise e => emit (EvAudioFileClip filename (Raise e)) ;; raise e
  | Ok d =>
      h <- new_object (mkClip filename d None) ;;
      emit (EvAudioFileClip filename (Ok h)) ;;
      ret h
  end.

(** [clip.duration]; every clip the script reads from is in [objects]. *)
Definition get_duration (h : handle) : M (option float) :=
  objs <- read objects ;;
  ret (match lookup h objs with
       | Some c => clip_duration c
       | None => None
       end).

(** [ImageClip(img, duration=duration)] *)
Definition ImageClip (img : string) (duration : float) : M handle :=
  match open_image w img duration with
  | Some e => emit (EvImageClip img duration (Raise e)) ;; raise e
  | None =>
      h <- new_object (mkClip img (Some duration) None) ;;
      emit (EvImageClip img duration (Ok h)) ;;
      ret h
  end.

(** [self.with_audio(audio)] *)
Definition with_audio (self audio : handle) : M handle :=
  objs <- read objects ;;
  let c := match lookup self objs with
           | Some c => c
           | None => mkClip EmptyString None None
           end in
  let c' := mkClip (clip_source c) (clip_duration c) (Some audio) in
  match attach_audio w self audio with
  | WithAudioRaises e => emit (EvWithAudio self audio (Raise e)) ;; raise e
  | WithAudioCopy =>
      h <- new_object c' ;;
      emit (EvWithAudio self audio (Ok h)) ;;
      ret h
  | WithAudioSelf =>
      store_object self c' ;;
      emit (EvWithAudio self audio (Ok self)) ;;
      ret self
  end.

(** [self.write_videofile(filename, fps=fps, codec=codec,
    audio_codec=audio_codec, logger=logger, temp_audiofile=temp_audiofile)] *)
Definition write_videofile (self : handle) (filename : string) (fps : Z)
    (codec audio_codec logger temp_audiofile : string) : M unit :=
  match encode w self filename fps codec audio_codec logger temp_audiofile with
  | Some e =>
      emit (EvWriteVideofile self filename fps codec audio_codec logger
              temp_audiofile (Raise e)) ;;
      raise e
  | None =>
      emit (EvWriteVideofile self filename fps codec audio_codec logger
              temp_audiofile (Ok tt))
  end.

(** [self.close()], the release of a clip.  In moviepy it ends the reader
    process of an audio clip and does nothing for an image clip; it returns
    normally.  The event records that the script asked for the release of
    [self]. *)
Definition close (self : handle) : M unit := emit (EvClose self).

(** ** make_video *)

Definition image_not_found (image_path : string) : string :=
  "Image file not found: " ++ image_path.

Definition audio_not_found (audio_path : string) : string :=
  "Audio file not found: " ++ audio_path.

Definition invalid_duration : string :=
  "Audio duration is invalid or zero. Ensure the input audio file has a valid audio track and is not silent/empty.".

Definition temp_audio_name : string := "temp_processing_audio.mp4".

(** Lines 46 and 49. *)
Definition temp_audiofile_path (output_path : string) : string :=
  let output_dir := posixpath.dirname output_path in
  posixpath.join output_dir [temp_audio_name].

(** [duration is None or duration <= 0], the condition of line 32 as one
    boolean; [try_body] spells it out by cases, since what follows needs
    the number. *)
Definition duration_invalid (duration : option float) : bool :=
  match duration with
  | None => true
  | Some d => SFleb d float_zero
  end.

(** The body of [try], lines 16 to 63. *)
Definition try_body (image_path audio_path output_path : string) (fps : Z)
  : M unit :=
  print MsgStarting ;;
  print (MsgImage image_path) ;;
  print (MsgAudio audio_path) ;;
  print (MsgOutput output_path) ;;
  print (MsgFPS fps) ;;
  when (negb (path_exists w image_path))
       (raise (FileNotFoundError (image_not_found image_path))) ;;
  when (negb (path_exists w audio_path))
       (raise (FileNotFoundError (audio_not_found audio_path))) ;;
  print MsgLoadingAudio ;;
  a <- AudioFileClip audio_path ;;
  set_audio_clip (Some a) ;;
  duration <- get_duration a ;;
  match duration with
  | None => raise (ValueError invalid_duration)
  | Some d =>
      when (SFleb d float_zero) (raise (ValueError invalid_duration)) ;;
      print (MsgAudioDuration d) ;;
      print MsgProcessingImage ;;
      i <- ImageClip image_path d ;;
      set_image_clip (Some i) ;;
      print MsgCombining ;;
      f <- with_audio i a ;;
      set_final_clip (Some f) ;;
      let temp := temp_audiofile_path output_path in
      print (MsgTempAudio temp) ;;
      print (MsgWriting output_path) ;;
      write_videofile f output_path fps "libx264" "aac" "bar" temp ;;
      print (MsgCreated output_path)
  end.

(** The [except Exception as e] clause, lines 65 to 69. *)
Definition except_handler (e : exn) : M unit :=
  print (MsgError e) ;;
  print_exc e ;;
  raise e.

(** [if slot: slot.close()].  A moviepy clip is a plain object, hence
    true as a condition, and an unset slot holds [None]. *)
Definition close_if_set (slot : state -> option handle) : M unit :=
  v <- read slot ;;
  match v with
  | Some h => close h
  | None => ret tt
  end.

(** The [finally] clause, lines 70 to 77. *)
Definition finally_block : M unit :=
  close_if_set audio_clip ;;
  close_if_set image_clip ;;
  close_if_set final_clip.

Definition make_video (image_path audio_path output_path : string) (fps : Z)
  : M unit :=
  set_audio_clip None ;;
  set_image_clip None ;;
  set_final_clip None ;;
  try_finally
    (try_except (try_body image_path audio_path output_path fps)
                except_handler)
    finally_block.

(** [fps=24] in the signature: a call that leaves [fps] out. *)
Definition fps_default : Z := 24.

Definition make_video_call (image_path audio_path output_path : string)
    (fps : option Z) : M unit :=
  make_video image_path audio_path output_path
    (match fps with Some v => v | None => fps_default end).

(** The command line, after [argparse] has split it: three positionals
    and the value of [--fps] when the flag is given ([type=int]). *)
Record CommandLine : Type := mkCommandLine {
  cl_image_path : string;
  cl_audio_path : string;
  cl_output_path : string;
  cl_fps : option Z
}.

Record Namespace : Type := mkNamespace {
  ns_image_path : string;
  ns_audio_path : string;
  ns_output_path : string;
  ns_fps : Z
}.

(** [parser.parse_args()], with [default=24] for [--fps]. *)
Definition parse_args (cl : CommandLine) : Namespace :=
  mkNamespace (cl_image_path cl) (cl_audio_path cl) (cl_output_path cl)
    (match cl_fps cl with Some v => v | None => 24%Z end).

(** The [__main__] block. *)
Definition main (cl : CommandLine) : M unit :=
  let args := parse_args cl in
  make_video (ns_image_path args) (ns_audio_path args) (ns_output_path args)
    (ns_fps args).

End Script.

(** A fresh interpreter: no object yet, nothing observed. *)
Definition initial : state := mkState None None None 0 [] [].

(** One execution of [make_video] in world [w]. *)
Definition run (w : World) (image_path audio_path output_path : string)
    (fps : Z) : result unit * state :=
  make_video w image_path audio_path output_path fps initial.

(** ** Reading a trace *)

Definition is_media_call (e : event) : bool :=
  match e with
  | EvPrint _ | EvPrintExc _ => false
  | _ => true
  end.

Definition media_calls (tr : list event) : list event :=
  filter is_media_call tr.

Definition is_audio_open (e : event) : bool :=
  match e with EvAudioFileClip _ _ => true | _ => false end.

Definition is_image_open (e : event) : bool :=
  match e with EvImageClip _ _ _ => true | _ => false end.

Definition is_attach (e : event) : bool :=
  match e with EvWithAudio _ _ _ => true | _ => false end.

Definition is_write (e : event) : bool :=
  match e with
  | EvWriteVideofile _ _ _ _ _ _ _ _ => true
  | _ => false
  end.

Definition is_clip_construction (e : event) : bool :=
  is_image_open e || is_attach e.

(** The handles that a call of the trace returned. *)
Fixpoint opened (tr : list event) : list handle :=
  match tr with
  | [] => []
  | EvAudioFileClip _ (Ok h) :: rest => h :: opened rest
  | EvImageClip _ _ (Ok h) :: rest => h :: opened rest
  | EvWithAudio _ _ (Ok h) :: rest => h :: opened rest
  | _ :: rest => opened rest
  end.

(** The handles whose [close] the trace records, one entry per call. *)
Fixpoint closed (tr : list event) : list handle :=
  match tr with
  | [] => []
  | EvClose h :: rest => h :: closed rest
  | _ :: rest => closed rest
  end.

Definition times_closed (h : handle) (tr : list event) : nat :=
  count_occ Nat.eq_dec (closed tr) h.

Definition slot_handles (slot : option handle) : list handle :=
  match slot with Some h => [h] | None => [] end.

(** The handles held by the three local variables, in the order in which
    the [finally] clause visits them. *)
Definition set_slots (s : state) : list handle :=
  slot_handles (audio_clip s) ++ slot_handles (image_clip s)
  ++ slot_handles (final_clip s).

(** "Zero, or negative" for a float, read off its IEEE 754 class: a zero
    of either sign, minus infinity, or a finite number with the sign bit. *)
Definition zero_or_negative (d : float) : bool :=
  match d with
  | S754_zero _ => true
  | S754_infinity s => s
  | S754_finite s _ _ => s
  | S754_nan => false
  end.

(** ** Sample worlds *)

(** 5.0 as a binary64: 5629499534213120 * 2^-50. *)
Definition five_seconds : float := S754_finite false 5629499534213120 (-50).

(** Both files exist and every moviepy call succeeds; [a] says whether
    [with_audio] copies or returns its receiver. *)
Definition happy_world (d : float) (a : with_audio_answer) : World :=
  mkWorld (fun _ => true) (fun _ => Ok (Some d)) (fun _ _ => None)
    (fun _ _ => a) (fun _ _ _ _ _ _ _ => None).

(** No path exists. *)
Definition empty_disk : World :=
  mkWorld (fun _ => false) (fun _ => Raise (MediaError "no such file"))
    (fun _ _ => None) (fun _ _ => WithAudioCopy) (fun _ _ _ _ _ _ _ => None).

(** The files exist and the audio reports the duration [d]. *)
Definition audio_world (d : option float) : World :=
  mkWorld (fun _ => true) (fun _ => Ok d) (fun _ _ => None)
    (fun _ _ => WithAudioCopy) (fun _ _ _ _ _ _ _ => None).

(** The files exist but the image cannot be decoded. *)
Definition bad_image_world : World :=
  mkWorld (fun _ => true) (fun _ => Ok (Some five_seconds))
    (fun _ _ => Some (MediaError "cannot identify image file"))
    (fun _ _ => WithAudioCopy) (fun _ _ _ _ _ _ _ => None).

(** The run of the first scenario of the command line: a five second
    audio, every call succeeding, [with_audio] copying. *)
Definition happy_run : result unit * state :=
  run (happy_world five_seconds WithAudioCopy)
    "cover.png" "song.mp3" "out/video.mp4" 24.

(** The state in which the body of the [try] stops in [bad_image_world]. *)
Definition bad_image_body_state : state :=
  snd (try_body bad_image_world "cover.png" "song.mp3" "video.mp4" 24
         initial).

(** ** More readers of a trace *)

(** The five lines that every call prints first (lines 16 to 20). *)
Definition header (image_path audio_path output_path : string) (fps : Z)
  : list event :=
  [EvPrint MsgStarting; EvPrint (MsgImage image_path);
   EvPrint (MsgAudio audio_path); EvPrint (MsgOutput output_path);
   EvPrint (MsgFPS fps)].

(** The exception with which a recorded moviepy call ended, when it
    raised. *)
Definition raised_by (ev : event) : option exn :=
  match ev with
  | EvAudioFileClip _ (Raise e) => Some e
  | EvImageClip _ _ (Raise e) => Some e
  | EvWithAudio _ _ (Raise e) => Some e
  | EvWriteVideofile _ _ _ _ _ _ _ (Raise e) => Some e
  | _ => None
  end.

Definition is_close (e : event) : bool :=
  match e with EvClose _ => true | _ => false end.

(** The part of a trace that starts at its first [close]. *)
Fixpoint from_first_close (tr : list event) : list event :=
  match tr with
  | [] => []
  | e :: rest => if is_close e then tr else from_first_close rest
  end.

(** A world in which both files exist and the four moviepy calls answer
    as given. *)
Definition scripted_world (audio : result (option float))
    (image : option exn) (attach : with_audio_answer) (write : option exn)
  : World :=
  mkWorld (fun _ => true) (fun _ => audio) (fun _ _ => image)
    (fun _ _ => attach) (fun _ _ _ _ _ _ _ => write).

(** A disk that holds the two input files and nothing else: neither the
    output file nor its directory. *)
Definition inputs_only_world : World :=
  mkWorld (fun p => String.eqb p "cover.png" || String.eqb p "song.mp3")
    (fun _ => Ok (Some five_seconds)) (fun _ _ => None)
    (fun _ _ => WithAudioCopy) (fun _ _ _ _ _ _ _ => None).

(** [posixpath.isabs]: [s.startswith(sep)]. *)
Definition isabs (p : string) : bool :=
  posixpath.startswith posixpath.sep p.

(** ** What the encoder leaves on disk *)






(** * Proofs *)

(** ** Symbolic execution of the script *)

Ltac unfold_script :=
  cbv beta iota zeta delta
    [run make_video try_body except_handler finally_block close_if_set
     bind ret raise try_except try_finally when read
     print print_exc emit close
     AudioFileClip ImageClip with_audio write_videofile get_duration
     new_object store_object lookup Nat.eqb
     set_audio_clip set_image_clip set_final_clip initial
     audio_clip image_clip final_clip next_handle objects trace
     clip_source clip_duration clip_audio
     negb app fst snd].

Ltac split_world :=
  match goal with
  | |- context [path_exists ?w ?p] => destruct (path_exists w p) eqn:?
  | |- context [open_audio ?w ?p] =>
      destruct (open_audio w p) as [[?|]|?] eqn:?
  | |- context [SFleb ?d float_zero] => destruct (SFleb d float_zero) eqn:?
  | |- context [open_image ?w ?p ?d] => destruct (open_image w p d) eqn:?
  | |- context [attach_audio ?w ?x ?y] => destruct (attach_audio w x y) eqn:?
  | |- context [encode ?w ?a ?b ?c ?d ?e ?f ?g] =>
      destruct (encode w a b c d e f g) eqn:?
  end.

(** Every answer of the world is split on, in program order; each goal
    that is left is one complete execution. *)
Ltac exec := unfold_script; repeat (split_world; unfold_script).

Ltac read_trace :=
  cbv beta iota zeta delta
    [opened closed set_slots slot_handles times_closed count_occ
     media_calls filter is_media_call is_write is_clip_construction
     is_audio_open is_image_open is_attach orb length map app
     audio_clip image_clip final_clip trace objects lookup Nat.eqb].

Ltac break_or :=
  repeat match goal with
         | H : _ \/ _ |- _ => destruct H
         | H : False |- _ => destruct H
         end.

(** ** Concrete runs *)

Example dirname_nested : posixpath.dirname "/data/out/video.mp4" = "/data/out".
Proof. reflexivity. Qed.

Example dirname_bare : posixpath.dirname "video.mp4" = "".
Proof. reflexivity. Qed.

Example dirname_root : posixpath.dirname "/video.mp4" = "/".
Proof. reflexivity. Qed.

Example dirname_doubled : posixpath.dirname "a//b" = "a".
Proof. reflexivity. Qed.

Example join_plain : posixpath.join "/data/out" ["t.mp4"] = "/data/out/t.mp4".
Proof. reflexivity. Qed.

Example join_root : posixpath.join "/" ["t.mp4"] = "/t.mp4".
Proof. reflexivity. Qed.

Example join_absolute : posixpath.join "/data" ["/t.mp4"] = "/t.mp4".
Proof. reflexivity. Qed.

Example temp_path_nested :
  temp_audiofile_path "/data/out/video.mp4"
  = "/data/out/temp_processing_audio.mp4".
Proof. reflexivity. Qed.

Example five_seconds_is_binary64 : valid_binary 53 1024 five_seconds = true.
Proof. reflexivity. Qed.

Example five_seconds_positive : SFleb five_seconds float_zero = false.
Proof. reflexivity. Qed.

Example nan_passes_the_check : duration_invalid (Some S754_nan) = false.
Proof. reflexivity. Qed.

Example happy_run_trace :
  trace (snd (run (happy_world five_seconds WithAudioCopy)
                "cover.png" "song.mp3" "out/video.mp4" 24))
  = [EvPrint MsgStarting; EvPrint (MsgImage "cover.png");
     EvPrint (MsgAudio "song.mp3"); EvPrint (MsgOutput "out/video.mp4");
     EvPrint (MsgFPS 24); EvPrint MsgLoadingAudio;
     EvAudioFileClip "song.mp3" (Ok 0);
     EvPrint (MsgAudioDuration five_seconds); EvPrint MsgProcessingImage;
     EvImageClip "cover.png" five_seconds (Ok 1);
     EvPrint MsgCombining; EvWithAudio 1 0 (Ok 2);
     EvPrint (MsgTempAudio "out/temp_processing_audio.mp4");
     EvPrint (MsgWriting "out/video.mp4");
     EvWriteVideofile 2 "out/video.mp4" 24 "libx264" "aac" "bar"
       "out/temp_processing_audio.mp4" (Ok tt);
     EvPrint (MsgCreated "out/video.mp4");
     EvClose 0; EvClose 1; EvClose 2].
Proof. reflexivity. Qed.

Example bad_image_run_trace :
  run bad_image_world "cover.png" "song.mp3" "video.mp4" 24
  = (Raise (MediaError "cannot identify image file"),
     mkState (Some 0) None None 1
       [(0, mkClip "song.mp3" (Some five_seconds) None)]
       [EvPrint MsgStarting; EvPrint (MsgImage "cover.png");
        EvPrint (MsgAudio "song.mp3"); EvPrint (MsgOutput "video.mp4");
        EvPrint (MsgFPS 24); EvPrint MsgLoadingAudio;
        EvAudioFileClip "song.mp3" (Ok 0);
        EvPrint (MsgAudioDuration five_seconds); EvPrint MsgProcessingImage;
        EvImageClip "cover.png" five_seconds
          (Raise (MediaError "cannot identify image file"));
        EvPrint (MsgError (MediaError "cannot identify image file"));
        EvPrintExc (MediaError "cannot identify image file");
        EvClose 0]).
Proof. reflexivity. Qed.

(** ** Facts about the string functions behind [os.path] *)

Section PathFacts.

Import posixpath.

Variable c : ascii.

Lemma rfind_lower (p : string) : (-1 <= rfind c p)%Z.
Proof.
  induction p as [|x r IH]; simpl; [lia|].
  destruct (0 <=? rfind c r)%Z eqn:E; [apply Z.leb_le in E; lia|].
  destruct (Ascii.eqb x c); lia.
Qed.

Lemma rfind_app_last (a b : string) :
  rfind c b = (-1)%Z ->
  rfind c (a ++ String c b) = Z.of_nat (String.length a).
Proof.
  intros Hb. induction a as [|x r IH].
  - simpl. rewrite Hb. simpl. now rewrite Ascii.eqb_refl.
  - change (rfind c (String x r ++ String c b))
      with (let i := rfind c (r ++ String c b) in
            if (0 <=? i)%Z then (i + 1)%Z
            else if Ascii.eqb x c then 0%Z else (-1)%Z).
    cbv zeta. rewrite IH.
    replace (0 <=? Z.of_nat (String.length r))%Z with true
      by (symmetry; apply Z.leb_le; lia).
    simpl String.length. lia.
Qed.

Lemma substring_0_0 (p : string) : substring 0 0 p = "".
Proof. now destruct p. Qed.

Lemma substring_prefix (a b : string) :
  substring 0 (String.length a) (a ++ b) = a.
Proof.
  induction a as [|x r IH]; simpl.
  - apply substring_0_0.
  - now rewrite IH.
Qed.

Lemma substring_suffix (a b : string) :
  substring (String.length a) (String.length b) (a ++ b) = b.
Proof.
  induction a as [|x r IH]; simpl; [|exact IH].
  induction b as [|y s IHs]; simpl; [reflexivity|now rewrite IHs].
Qed.

Lemma append_snoc (a b : string) (x : ascii) :
  a ++ String x b = (a ++ String x "") ++ b.
Proof. induction a as [|y r IH]; simpl; [reflexivity|now rewrite IH]. Qed.

Lemma length_snoc (a : string) (x : ascii) :
  String.length (a ++ String x "") = S (String.length a).
Proof. induction a as [|y r IH]; simpl; [reflexivity|now rewrite IH]. Qed.

Lemma length_append (a b : string) :
  String.length (a ++ b) = String.length a + String.length b.
Proof. induction a as [|y r IH]; simpl; [reflexivity|now rewrite IH]. Qed.

(** The head that [dirname] and [basename] cut at: everything up to and
    with the last [c]. *)
Lemma head_app_last (a b : string) :
  rfind c b = (-1)%Z ->
  slice_to (rfind c (a ++ String c b) + 1) (a ++ String c b)
  = a ++ String c "".
Proof.
  intros Hb. rewrite (rfind_app_last a b Hb). unfold slice_to.
  replace (Z.to_nat (Z.of_nat (String.length a) + 1))
    with (String.length (a ++ String c "")) by (rewrite length_snoc; lia).
  rewrite (append_snoc a b c). apply substring_prefix.
Qed.

Lemma head_without (p : string) :
  rfind c p = (-1)%Z -> slice_to (rfind c p + 1) p = "".
Proof. intros ->. apply substring_0_0. Qed.

Lemma rstrip_snoc (a : string) : rstrip c (a ++ String c "") = rstrip c a.
Proof.
  induction a as [|x r IH]; simpl.
  - now rewrite Ascii.eqb_refl.
  - now rewrite IH.
Qed.

Lemma rstrip_all (p : string) : all_char c p = true -> rstrip c p = "".
Proof.
  induction p as [|x r IH]; simpl; [reflexivity|].
  intros H. apply andb_true_iff in H as [Hx Hr].
  now rewrite (IH Hr), Hx.
Qed.

Lemma rstrip_fixed (p : string) :
  is_empty p = false -> endswith c p = false -> rstrip c p = p.
Proof.
  induction p as [|x r IH]; [discriminate|].
  intros _ He. destruct r as [|y r'].
  - simpl in *. now rewrite He.
  - change (endswith c (String x (String y r')))
      with (endswith c (String y r')) in He.
    change (rstrip c (String x (String y r')))
      with (match rstrip c (String y r') with
            | "" => if Ascii.eqb x c then "" else String x ""
            | r0 => String x r0
            end).
    now rewrite (IH eq_refl He).
Qed.

Lemma rstrip_shape (p : string) :
  all_char c p = false ->
  is_empty (rstrip c p) = false /\ endswith c (rstrip c p) = false.
Proof.
  induction p as [|x r IH]; [discriminate|].
  simpl. intros H. destruct (all_char c r) eqn:Hr.
  - rewrite andb_true_r in H. rewrite (rstrip_all r Hr), H. simpl. now rewrite H.
  - destruct (IH eq_refl) as [Hn He].
    destruct (rstrip c r) as [|y r'] eqn:Hs; [discriminate|].
    split; [reflexivity|exact He].
Qed.

Lemma all_char_snoc (a : string) :
  all_char c (a ++ String c "") = all_char c a.
Proof.
  induction a as [|x r IH]; simpl.
  - now rewrite Ascii.eqb_refl.
  - now rewrite IH.
Qed.

Lemma all_char_rotate (p : string) :
  all_char c p = true -> String c p = p ++ String c "".
Proof.
  induction p as [|x r IH]; simpl; [reflexivity|].
  intros H. apply andb_true_iff in H as [Hx Hr].
  apply Ascii.eqb_eq in Hx. subst x. now rewrite <- (IH Hr).
Qed.

Lemma all_char_last (p : string) :
  all_char c p = true -> is_empty p = false ->
  exists q, p = q ++ String c "".
Proof.
  destruct p as [|x r]; [discriminate|].
  simpl. intros H _. apply andb_true_iff in H as [Hx Hr].
  apply Ascii.eqb_eq in Hx. subst x. exists r. now apply all_char_rotate.
Qed.

Lemma endswith_snoc (a : string) (x : ascii) :
  endswith c (a ++ String x "") = Ascii.eqb x c.
Proof.
  induction a as [|y r IH]; [reflexivity|].
  rewrite <- IH. simpl. now destruct (r ++ String x "") eqn:E; [destruct r|].
Qed.

Lemma endswith_all_char (p : string) :
  is_empty p = false -> endswith c p = false -> all_char c p = false.
Proof.
  intros Hn He. destruct (all_char c p) eqn:Ha; [|reflexivity].
  destruct (all_char_last p Ha Hn) as [q ->].
  rewrite endswith_snoc, Ascii.eqb_refl in He. discriminate.
Qed.

Lemma rfind_startswith (p : string) :
  rfind c p = (-1)%Z -> startswith c p = false.
Proof.
  destruct p as [|x r]; [reflexivity|]. simpl.
  pose proof (rfind_lower r).
  destruct (0 <=? rfind c r)%Z eqn:E; [apply Z.leb_le in E; lia|].
  now destruct (Ascii.eqb x c).
Qed.

End PathFacts.

Section DirnameFacts.

Import posixpath.

Lemma dirname_without (p : string) :
  rfind sep p = (-1)%Z -> dirname p = "".
Proof. intros H. unfold dirname. now rewrite (head_without sep p H). Qed.

Lemma dirname_shape (p : string) :
  all_char sep (dirname p) = true
  \/ (is_empty (dirname p) = false /\ endswith sep (dirname p) = false).
Proof.
  unfold dirname. cbv zeta.
  destruct (is_empty (slice_to (rfind sep p + 1) p)) eqn:Hn.
  - left. simpl. now destruct (slice_to (rfind sep p + 1) p).
  - destruct (all_char sep (slice_to (rfind sep p + 1) p)) eqn:Ha; simpl.
    + now left.
    + right. now apply rstrip_shape.
Qed.

(** The three ways in which [join] extends a [dirname]. *)
Lemma join_dirname_cases (o name : string) :
  startswith sep name = false ->
  (dirname o = "" /\ join (dirname o) [name] = name)
  \/ (exists q, dirname o = q ++ String sep ""
                /\ all_char sep (dirname o) = true
                /\ join (dirname o) [name] = q ++ String sep name)
  \/ (is_empty (dirname o) = false /\ endswith sep (dirname o) = false
      /\ join (dirname o) [name] = dirname o ++ String sep name).
Proof.
  intros Hs. unfold join, join_step. simpl fold_left. rewrite Hs.
  destruct (dirname_shape o) as [Ha|[Hn He]].
  - destruct (is_empty (dirname o)) eqn:Hn.
    + left. destruct (dirname o); [now split|discriminate].
    + right; left. destruct (all_char_last sep _ Ha Hn) as [q Hq].
      exists q. split; [exact Hq|]. split; [exact Ha|].
      assert (He : endswith sep (dirname o) = true)
        by (rewrite Hq, endswith_snoc; apply Ascii.eqb_refl).
      rewrite He, orb_true_r, Hq. symmetry. apply append_snoc.
  - right; right. now rewrite Hn, He.
Qed.

Lemma dirname_join_dirname (o name : string) :
  rfind sep name = (-1)%Z ->
  dirname (join (dirname o) [name]) = dirname o.
Proof.
  intros Hname.
  destruct (join_dirname_cases o name (rfind_startswith sep name Hname))
    as [[Hd ->]|[(q & Hq & Ha & ->)|(Hn & He & ->)]].
  - rewrite Hd. now apply dirname_without.
  - unfold dirname at 1. rewrite (head_app_last sep q name Hname), <- Hq.
    now rewrite Ha, andb_false_r.
  - unfold dirname at 1. rewrite (head_app_last sep _ name Hname).
    rewrite all_char_snoc, (endswith_all_char sep _ Hn He), rstrip_snoc.
    destruct (dirname o ++ String sep "") eqn:E.
    + destruct (dirname o); discriminate.
    + simpl. now apply rstrip_fixed.
Qed.

Lemma basename_without (p : string) :
  rfind sep p = (-1)%Z -> basename p = p.
Proof.
  intros H. unfold basename. rewrite H. simpl. rewrite Nat.sub_0_r.
  apply (substring_suffix "" p).
Qed.

Lemma basename_app_last (a b : string) :
  rfind sep b = (-1)%Z -> basename (a ++ String sep b) = b.
Proof.
  intros H. unfold basename. rewrite (rfind_app_last sep a b H).
  replace (Z.to_nat (Z.of_nat (String.length a) + 1))
    with (String.length (a ++ String sep "")) by (rewrite length_snoc; lia).
  rewrite (append_snoc a b sep). generalize (a ++ String sep "") as u. intros u.
  rewrite length_append.
  replace (String.length u + String.length b - String.length u)
    with (String.length b) by lia.
  apply substring_suffix.
Qed.

Lemma basename_join_dirname (o name : string) :
  rfind sep name = (-1)%Z ->
  basename (join (dirname o) [name]) = name.
Proof.
  intros Hname.
  destruct (join_dirname_cases o name (rfind_startswith sep name Hname))
    as [[Hd ->]|[(q & Hq & Ha & ->)|(Hn & He & ->)]].
  - now apply basename_without.
  - now apply basename_app_last.
  - now apply basename_app_last.
Qed.

End DirnameFacts.

(** ** Facts about the script *)

Lemma SFleb_zero (d : float) : SFleb d float_zero = zero_or_negative d.
Proof. destruct d as [s|s| |s m e]; try destruct s; reflexivity. Qed.

Lemma duration_invalid_iff (duration : option float) :
  duration_invalid duration = true
  <-> duration = None
      \/ (exists d, duration = Some d /\ zero_or_negative d = true).
Proof.
  destruct duration as [d|]; simpl.
  - rewrite SFleb_zero. split.
    + intros H. right. now exists d.
    + intros [H|[x [H Hx]]]; [discriminate|]. now injection H as ->.
  - split; [now left|reflexivity].
Qed.

Lemma temp_audio_name_plain :
  posixpath.rfind posixpath.sep temp_audio_name = (-1)%Z.
Proof. reflexivity. Qed.

Lemma dirname_temp_audiofile_path (o : string) :
  posixpath.dirname (temp_audiofile_path o) = posixpath.dirname o.
Proof. apply dirname_join_dirname, temp_audio_name_plain. Qed.

Lemma basename_temp_audiofile_path (o : string) :
  posixpath.basename (temp_audiofile_path o) = temp_audio_name.
Proof. apply basename_join_dirname, temp_audio_name_plain. Qed.

(** The three assignments of [None] leave a fresh state as it is. *)
Lemma make_video_initial w i a o fps :
  run w i a o fps
  = try_finally (try_except (try_body w i a o fps) except_handler)
      finally_block initial.
Proof. reflexivity. Qed.

(** The [finally] clause returns normally and closes the set slots, in
    the order audio, image, final. *)
Lemma finally_block_closes (s : state) :
  finally_block s
  = (Ok tt, mkState (audio_clip s) (image_clip s) (final_clip s)
              (next_handle s) (objects s)
              (trace s ++ map EvClose (set_slots s))).
Proof.
  destruct s as [[x|] [y|] [z|] n objs tr];
    cbv [finally_block close_if_set bind read close emit ret set_slots
         slot_handles audio_clip image_clip final_clip next_handle objects
         trace];
    cbn [app map]; rewrite <- ?app_assoc, ?app_nil_r; reflexivity.
Qed.

(** [make_video] raises exactly when its body raises, and the same
    exception. *)
Lemma run_outcome_is_body_outcome w i a o fps :
  fst (run w i a o fps) = fst (try_body w i a o fps initial).
Proof.
  rewrite make_video_initial. unfold try_finally, try_except.
  destruct (try_body w i a o fps initial) as [[[]|e] s0];
    unfold except_handler, bind, print, print_exc, emit, raise;
    rewrite finally_block_closes; reflexivity.
Qed.

(** Each call that opens, composes or encodes happens at most once. *)
Lemma run_calls_once w i a o fps :
  let tr := trace (snd (run w i a o fps)) in
  length (filter is_audio_open tr) <= 1
  /\ length (filter is_image_open tr) <= 1
  /\ length (filter is_attach tr) <= 1
  /\ length (filter is_write tr) <= 1.
Proof. exec; read_trace; repeat split; lia. Qed.

(** What a recorded encoder call looks like. *)
Lemma run_write_event w i a o fps h f fps' c ac lg t r :
  In (EvWriteVideofile h f fps' c ac lg t r) (trace (snd (run w i a o fps))) ->
  f = o /\ fps' = fps /\ c = "libx264" /\ ac = "aac" /\ lg = "bar"
  /\ t = temp_audiofile_path o
  /\ final_clip (snd (run w i a o fps)) = Some h.
Proof.
  exec; cbn [In]; intros H; break_or; try discriminate;
    injection H as <- <- <- <- <- <- <- <-; repeat split.
Qed.

(** The duration that [try_body] reads back is the one the audio clip was
    opened with: the object is found in [objects]. *)
Lemma audio_duration_read_back w a d s :
  (h <- AudioFileClip w a ;; get_duration h) initial = (Ok d, s) ->
  open_audio w a = Ok d.
Proof.
  unfold_script. destruct (open_audio w a) as [d'|e]; unfold_script;
    intros H; now inversion H.
Qed.

(** ** The claims *)

(** C1. When the image path or the audio path does not exist, [make_video]
    raises [FileNotFoundError] with the message "Image file not found: P"
    or "Audio file not found: P", where P is the path that is missing (the
    image is looked at first); no moviepy call of any kind is made, and in
    particular nothing is written. *)
Theorem C1_missing_input w image_path audio_path output_path fps :
  path_exists w image_path = false \/ path_exists w audio_path = false ->
  let r := run w image_path audio_path output_path fps in
  (exists missing,
      path_exists w missing = false
      /\ (fst r = Raise (FileNotFoundError ("Image file not found: " ++ missing))
          /\ missing = image_path
          \/ fst r = Raise (FileNotFoundError ("Audio file not found: " ++ missing))
             /\ missing = audio_path))
  /\ media_calls (trace (snd r)) = []
  /\ filter is_write (trace (snd r)) = [].
Proof.
  intros H r; subst r; exec; try (destruct H; congruence); read_trace;
    (split; [|now split]);
    first [ exists image_path; split; [assumption|left; now split]
          | exists audio_path; split; [assumption|right; now split] ].
Qed.

Lemma C1_witness :
  (path_exists empty_disk "cover.png" = false
   \/ path_exists empty_disk "song.mp3" = false)
  /\ fst (run empty_disk "cover.png" "song.mp3" "out/video.mp4" 24)
     = Raise (FileNotFoundError "Image file not found: cover.png")
  /\ media_calls
       (trace (snd (run empty_disk "cover.png" "song.mp3" "out/video.mp4" 24)))
     = [].
Proof.
  split; [left; reflexivity|].
  split; [vm_compute; reflexivity|].
  exact (proj1 (proj2 (C1_missing_input empty_disk "cover.png" "song.mp3"
                         "out/video.mp4" 24 (or_introl eq_refl)))).
Defined.

(** C2. When both paths exist and the audio opens with a duration that is
    [None], a zero or negative, [make_video] raises [ValueError] with the
    fixed message; no image clip is built, no audio is attached and nothing
    is written: the only moviepy calls are the opening of the audio and its
    [close]. *)
Theorem C2_invalid_audio_duration w image_path audio_path output_path fps
    (duration : option float) :
  path_exists w image_path = true ->
  path_exists w audio_path = true ->
  open_audio w audio_path = Ok duration ->
  duration = None
  \/ (exists d, duration = Some d /\ zero_or_negative d = true) ->
  let r := run w image_path audio_path output_path fps in
  fst r = Raise (ValueError invalid_duration)
  /\ filter is_clip_construction (trace (snd r)) = []
  /\ filter is_write (trace (snd r)) = []
  /\ media_calls (trace (snd r))
     = [EvAudioFileClip audio_path (Ok 0); EvClose 0].
Proof.
  intros Hi Ha Hopen Hd r; subst r; exec; try congruence;
    try (read_trace; now repeat split).
  all: exfalso; destruct Hd as [->|[d [-> Hneg]]]; try congruence.
  all: match goal with
       | E : SFleb ?x float_zero = false |- _ =>
           rewrite SFleb_zero in E; congruence
       end.
Qed.

Lemma C2_witness :
  zero_or_negative (S754_zero true) = true
  /\ fst (run (audio_world (Some (S754_zero true)))
            "cover.png" "song.mp3" "video.mp4" 24)
     = Raise (ValueError invalid_duration)
  /\ media_calls
       (trace (snd (run (audio_world (Some (S754_zero true)))
                      "cover.png" "song.mp3" "video.mp4" 24)))
     = [EvAudioFileClip "song.mp3" (Ok 0); EvClose 0].
Proof.
  split; [reflexivity|].
  pose proof (C2_invalid_audio_duration
                (audio_world (Some (S754_zero true)))
                "cover.png" "song.mp3" "video.mp4" 24
                (Some (S754_zero true)) eq_refl eq_refl eq_refl
                (or_intror (ex_intro _ (S754_zero true)
                              (conj eq_refl eq_refl)))) as H.
  exact (conj (proj1 H) (proj2 (proj2 (proj2 H)))).
Defined.

(** C3. In every execution, returning or raising, every handle that a
    moviepy call returned has its [close] in the trace, every [close] in
    the trace is of a handle that a call returned, and the closes are
    exactly those of the slots that are set at the end: an unset slot is
    skipped. *)
Theorem C3_release_what_was_opened w image_path audio_path output_path fps :
  let s := snd (run w image_path audio_path output_path fps) in
  (forall h, In h (opened (trace s)) -> In h (closed (trace s)))
  /\ (forall h, In h (closed (trace s)) -> In h (opened (trace s)))
  /\ closed (trace s) = set_slots s.
Proof.
  exec; read_trace; repeat split; intros h H; cbn [In] in *; tauto.
Qed.

Lemma C3_witness :
  closed (trace (snd (run bad_image_world "cover.png" "song.mp3"
                        "video.mp4" 24)))
  = [0].
Proof.
  exact (proj2 (proj2 (C3_release_what_was_opened bad_image_world
                         "cover.png" "song.mp3" "video.mp4" 24))).
Defined.

(** C4. After a successful run the clip that was written is made from the
    image path, its duration is the duration the audio was opened with, and
    its audio is the audio clip: [ImageClip] was called with that duration,
    [with_audio] with the image clip and the audio clip, and
    [write_videofile] on the result. *)
Theorem C4_clip_spans_the_audio w image_path audio_path output_path fps s :
  run w image_path audio_path output_path fps = (Ok tt, s) ->
  exists d ha hi hf,
    open_audio w audio_path = Ok (Some d)
    /\ In (EvAudioFileClip audio_path (Ok ha)) (trace s)
    /\ In (EvImageClip image_path d (Ok hi)) (trace s)
    /\ In (EvWithAudio hi ha (Ok hf)) (trace s)
    /\ In (EvWriteVideofile hf output_path fps "libx264" "aac" "bar"
             (temp_audiofile_path output_path) (Ok tt)) (trace s)
    /\ lookup ha (objects s) = Some (mkClip audio_path (Some d) None)
    /\ lookup hf (objects s) = Some (mkClip image_path (Some d) (Some ha)).
Proof.
  exec; intros H; try discriminate; injection H as <-;
    match goal with
    | E : open_audio _ _ = Ok (Some ?d) |- _ => exists d, 0, 1
    end;
    [exists 2|exists 1]; read_trace; cbn [In]; repeat split; tauto.
Qed.

Lemma C4_witness :
  run (happy_world five_seconds WithAudioCopy)
    "cover.png" "song.mp3" "out/video.mp4" 24
  = (Ok tt, snd happy_run)
  /\ exists d ha hi hf,
      open_audio (happy_world five_seconds WithAudioCopy) "song.mp3"
      = Ok (Some d)
      /\ In (EvAudioFileClip "song.mp3" (Ok ha)) (trace (snd happy_run))
      /\ In (EvImageClip "cover.png" d (Ok hi)) (trace (snd happy_run))
      /\ In (EvWithAudio hi ha (Ok hf)) (trace (snd happy_run))
      /\ In (EvWriteVideofile hf "out/video.mp4" 24 "libx264" "aac" "bar"
               (temp_audiofile_path "out/video.mp4") (Ok tt))
           (trace (snd happy_run))
      /\ lookup ha (objects (snd happy_run))
         = Some (mkClip "song.mp3" (Some d) None)
      /\ lookup hf (objects (snd happy_run))
         = Some (mkClip "cover.png" (Some d) (Some ha)).
Proof.
  assert (H : run (happy_world five_seconds WithAudioCopy)
                "cover.png" "song.mp3" "out/video.mp4" 24
              = (Ok tt, snd happy_run))
    by (vm_compute; reflexivity).
  split; [exact H|].
  exact (C4_clip_spans_the_audio (happy_world five_seconds WithAudioCopy)
           "cover.png" "song.mp3" "out/video.mp4" 24 (snd happy_run) H).
Defined.

(** C5. Whatever exception the body of the [try] raises (a missing input,
    an invalid duration, or what a moviepy call raised while loading,
    composing or encoding), [make_video] raises that same exception; before
    it does, the handler has printed the error message and then the
    traceback of that exception, and the [finally] clause has closed the
    set slots.  No call that opens, composes or encodes occurs twice. *)
Theorem C5_catch_log_reraise w image_path audio_path output_path fps e s0 :
  try_body w image_path audio_path output_path fps initial = (Raise e, s0) ->
  let r := run w image_path audio_path output_path fps in
  fst r = Raise e
  /\ trace (snd r)
     = (trace s0 ++ [EvPrint (MsgError e); EvPrintExc e]
        ++ map EvClose (set_slots s0))%list
  /\ length (filter is_audio_open (trace (snd r))) <= 1
  /\ length (filter is_image_open (trace (snd r))) <= 1
  /\ length (filter is_attach (trace (snd r))) <= 1
  /\ length (filter is_write (trace (snd r))) <= 1.
Proof.
  intros Hbody r.
  split; [|split; [|apply run_calls_once]]; subst r;
    rewrite make_video_initial; unfold try_finally, try_except;
    rewrite Hbody; unfold except_handler, bind, print, print_exc, emit, raise;
    rewrite finally_block_closes; cbn [fst snd trace].
  - reflexivity.
  - destruct s0 as [x y z n objs tr]. unfold set_slots.
    cbn [audio_clip image_clip final_clip trace].
    now rewrite <- !app_assoc.
Qed.

Lemma C5_witness :
  try_body bad_image_world "cover.png" "song.mp3" "video.mp4" 24 initial
  = (Raise (MediaError "cannot identify image file"), bad_image_body_state)
  /\ fst (run bad_image_world "cover.png" "song.mp3" "video.mp4" 24)
     = Raise (MediaError "cannot identify image file")
  /\ trace (snd (run bad_image_world "cover.png" "song.mp3" "video.mp4" 24))
     = (trace bad_image_body_state
        ++ [EvPrint (MsgError (MediaError "cannot identify image file"));
            EvPrintExc (MediaError "cannot identify image file")]
        ++ map EvClose (set_slots bad_image_body_state))%list.
Proof.
  assert (H : try_body bad_image_world "cover.png" "song.mp3" "video.mp4" 24
                initial
              = (Raise (MediaError "cannot identify image file"),
                 bad_image_body_state))
    by (vm_compute; reflexivity).
  split; [exact H|].
  pose proof (C5_catch_log_reraise bad_image_world
                "cover.png" "song.mp3" "video.mp4" 24 _ _ H) as K.
  exact (conj (proj1 K) (proj1 (proj2 K))).
Defined.






(** C8. The temporary audio path has the same directory component as the
    output path, for every output path; whenever an execution reaches the
    encoder, the [temp_audiofile] it passes is that path (and it is the
    path that was printed before). *)
Theorem C8_temp_beside_output w image_path audio_path output_path fps :
  let tr := trace (snd (run w image_path audio_path output_path fps)) in
  posixpath.dirname (temp_audiofile_path output_path)
  = posixpath.dirname output_path
  /\ (forall h f fps' c ac lg t r,
        In (EvWriteVideofile h f fps' c ac lg t r) tr ->
        t = temp_audiofile_path output_path
        /\ posixpath.dirname t = posixpath.dirname output_path)
  /\ (forall t,
        In (EvPrint (MsgTempAudio t)) tr ->
        t = temp_audiofile_path output_path).
Proof.
  intros tr. split; [apply dirname_temp_audiofile_path|]. split.
  - intros h f fps' c ac lg t r H.
    apply run_write_event in H as (_ & _ & _ & _ & _ & -> & _).
    split; [reflexivity|apply dirname_temp_audiofile_path].
  - subst tr. exec; cbn [In]; intros t H; break_or; try discriminate;
      now injection H as <-.
Qed.

Lemma C8_witness :
  posixpath.dirname (temp_audiofile_path "/data/out/video.mp4")
  = posixpath.dirname "/data/out/video.mp4".
Proof.
  exact (proj1 (C8_temp_beside_output empty_disk "cover.png" "song.mp3"
                  "/data/out/video.mp4" 24)).
Defined.

(** C9. [fps] is 24 when the caller leaves it out, in the signature and on
    the command line alike; a given value reaches [make_video] as it is;
    every encoder call carries the [fps] that [make_video] received; and
    whether the encoder is reached does not depend on [fps]: if it is
    reached for one value it is reached for every other, zero and negative
    ones included, with that value as the argument. *)
Theorem C9_fps_unchecked w image_path audio_path output_path :
  make_video_call w image_path audio_path output_path None
  = make_video w image_path audio_path output_path 24
  /\ main w (mkCommandLine image_path audio_path output_path None)
     = make_video w image_path audio_path output_path 24
  /\ (forall fps,
        main w (mkCommandLine image_path audio_path output_path (Some fps))
        = make_video w image_path audio_path output_path fps)
  /\ (forall fps h f fps' c ac lg t r,
        In (EvWriteVideofile h f fps' c ac lg t r)
          (trace (snd (run w image_path audio_path output_path fps))) ->
        fps' = fps)
  /\ (forall fps fps',
        filter is_write
          (trace (snd (run w image_path audio_path output_path fps))) <> [] ->
        exists h r,
          In (EvWriteVideofile h output_path fps' "libx264" "aac" "bar"
                (temp_audiofile_path output_path) r)
            (trace (snd (run w image_path audio_path output_path fps')))).
Proof.
  repeat (split; [reflexivity|]). split.
  - intros fps h f fps' c ac lg t r H.
    now apply run_write_event in H as (_ & -> & _).
  - intros fps fps'. exec; read_trace; intros H; try (now destruct H);
      do 2 eexists; cbn [In];
      repeat (first [left; reflexivity|right]).
Qed.

Lemma C9_witness :
  filter is_write
    (trace (snd (run (happy_world five_seconds WithAudioCopy)
                   "cover.png" "song.mp3" "out/video.mp4" 24))) <> []
  /\ exists h r,
      In (EvWriteVideofile h "out/video.mp4" (-5) "libx264" "aac" "bar"
            (temp_audiofile_path "out/video.mp4") r)
        (trace (snd (run (happy_world five_seconds WithAudioCopy)
                       "cover.png" "song.mp3" "out/video.mp4" (-5)))).
Proof.
  assert (H : filter is_write
                (trace (snd (run (happy_world five_seconds WithAudioCopy)
                               "cover.png" "song.mp3" "out/video.mp4" 24)))
              <> [])
    by (vm_compute; discriminate).
  split; [exact H|].
  exact (proj2 (proj2 (proj2 (proj2
           (C9_fps_unchecked (happy_world five_seconds WithAudioCopy)
              "cover.png" "song.mp3" "out/video.mp4")))) 24%Z (-5)%Z H).
Defined.

(** C10. The last component of the temporary audio path is always
    "temp_processing_audio.mp4", whatever the run; when the output path has
    no directory component the temporary path is that bare name; and this
    is the [temp_audiofile] of every encoder call. *)
Theorem C10_fixed_temp_name w image_path audio_path output_path fps :
  posixpath.basename (temp_audiofile_path output_path)
  = "temp_processing_audio.mp4"
  /\ (posixpath.dirname output_path = "" ->
      temp_audiofile_path output_path = "temp_processing_audio.mp4")
  /\ (forall h f fps' c ac lg t r,
        In (EvWriteVideofile h f fps' c ac lg t r)
          (trace (snd (run w image_path audio_path output_path fps))) ->
        posixpath.basename t = "temp_processing_audio.mp4"
        /\ (posixpath.dirname output_path = "" ->
            t = "temp_processing_audio.mp4")).
Proof.
  assert (Hbase : posixpath.basename (temp_audiofile_path output_path)
                  = "temp_processing_audio.mp4")
    by apply basename_temp_audiofile_path.
  assert (Hbare : posixpath.dirname output_path = "" ->
                  temp_audiofile_path output_path = "temp_processing_audio.mp4")
    by (unfold temp_audiofile_path; intros ->; reflexivity).
  split; [exact Hbase|]. split; [exact Hbare|].
  intros h f fps' c ac lg t r H.
  apply run_write_event in H as (_ & _ & _ & _ & _ & -> & _). now split.
Qed.

Lemma C10_witness :
  posixpath.dirname "video.mp4" = ""
  /\ temp_audiofile_path "video.mp4" = "temp_processing_audio.mp4".
Proof.
  assert (H : posixpath.dirname "video.mp4" = "")
    by (vm_compute; reflexivity).
  split; [exact H|].
  exact (proj1 (proj2 (C10_fixed_temp_name empty_disk "cover.png" "song.mp3"
                         "video.mp4" 24)) H).
Defined.

(** ** Further properties of [make_video] *)

Ltac drop_equation E := first [injection E as ->|injection E as <-|clear E].

Ltac kill_float :=
  repeat match goal with
         | E : SFleb _ float_zero = _ |- _ => rewrite SFleb_zero in E
         | E : Ok (Some _) = Ok (Some _) |- _ => drop_equation E
         | E : Raise _ = Raise _ |- _ => drop_equation E
         | E : Some _ = Some _ |- _ => drop_equation E
         | E : WithAudioRaises _ = WithAudioRaises _ |- _ => drop_equation E
         end.

Ltac in_list := cbn [In]; repeat (first [left; reflexivity|right]).

(** [exists ev, In ev L /\ P ev], by trying the members of [L] in turn. *)
Ltac pick_from L :=
  match L with
  | ?x :: ?rest =>
      first [ exists x; split; [in_list|reflexivity] | pick_from rest ]
  end.

Ltac pick_event :=
  match goal with
  | |- exists ev, In ev ?L /\ _ => pick_from L
  end.

(** After the world has been split on: the branches that contradict a
    hypothesis go, the one left is read off. *)
Ltac merge_answers :=
  repeat match goal with
         | H1 : ?t = _, H2 : ?t = _ |- _ =>
             rewrite H1 in H2;
             first [discriminate H2|injection H2 as <-|clear H2]
         end.

Ltac settle :=
  kill_float; try congruence; merge_answers; read_trace; repeat split;
  first [reflexivity|congruence].

(** X1. A duration that is neither [None] nor zero nor negative passes the
    check of line 32, and this holds for NaN as for a positive number or
    plus infinity: [ImageClip] is called with the image path and that
    duration. *)
Theorem duration_check_lets_the_rest_pass w image_path audio_path
    output_path fps d :
  path_exists w image_path = true ->
  path_exists w audio_path = true ->
  open_audio w audio_path = Ok (Some d) ->
  zero_or_negative d = false ->
  exists res,
    In (EvImageClip image_path d res)
      (trace (snd (run w image_path audio_path output_path fps))).
Proof.
  intros Hi Ha Hopen Hd; exec; kill_float; try congruence;
    eexists; in_list.
Qed.

Lemma duration_check_lets_the_rest_pass_witness :
  zero_or_negative S754_nan = false
  /\ exists res,
      In (EvImageClip "cover.png" S754_nan res)
        (trace (snd (run (audio_world (Some S754_nan))
                       "cover.png" "song.mp3" "video.mp4" 24))).
Proof.
  split; [reflexivity|].
  exact (duration_check_lets_the_rest_pass (audio_world (Some S754_nan))
           "cover.png" "song.mp3" "video.mp4" 24 S754_nan
           eq_refl eq_refl eq_refl eq_refl).
Defined.

(** X2. When the image path does not exist the audio path is not looked
    at: the error names the image whether or not the audio exists, and all
    that the call does is print the five header lines, then the error
    message and the traceback.  No slot is set and no object is made. *)
Theorem missing_image_comes_first w image_path audio_path output_path fps :
  path_exists w image_path = false ->
  run w image_path audio_path output_path fps
  = (Raise (FileNotFoundError ("Image file not found: " ++ image_path)),
     mkState None None None 0 []
       (header image_path audio_path output_path fps
        ++ [EvPrint (MsgError (FileNotFoundError
                                 ("Image file not found: " ++ image_path)));
            EvPrintExc (FileNotFoundError
                          ("Image file not found: " ++ image_path))])).
Proof. intros H; exec; try congruence; reflexivity. Qed.

Lemma missing_image_comes_first_witness :
  path_exists empty_disk "cover.png" = false
  /\ fst (run empty_disk "cover.png" "song.mp3" "video.mp4" 24)
     = Raise (FileNotFoundError "Image file not found: cover.png").
Proof.
  split; [reflexivity|].
  exact (f_equal fst (missing_image_comes_first empty_disk
                        "cover.png" "song.mp3" "video.mp4" 24 eq_refl)).
Defined.

(** X3. When both paths exist and [AudioFileClip] raises, [make_video]
    raises that exception; the failed call is its only moviepy call:
    nothing was opened, so nothing is closed. *)
Theorem audio_open_failure w image_path audio_path output_path fps e :
  path_exists w image_path = true ->
  path_exists w audio_path = true ->
  open_audio w audio_path = Raise e ->
  let r := run w image_path audio_path output_path fps in
  fst r = Raise e
  /\ media_calls (trace (snd r)) = [EvAudioFileClip audio_path (Raise e)]
  /\ set_slots (snd r) = []
  /\ objects (snd r) = [].
Proof. intros Hi Ha Hopen r; subst r; exec; settle. Qed.

Lemma audio_open_failure_witness :
  fst (run (scripted_world (Raise (MediaError "no audio stream"))
              None WithAudioCopy None)
         "cover.png" "notes.txt" "video.mp4" 24)
  = Raise (MediaError "no audio stream")
  /\ media_calls
       (trace (snd (run (scripted_world (Raise (MediaError "no audio stream"))
                           None WithAudioCopy None)
                      "cover.png" "notes.txt" "video.mp4" 24)))
     = [EvAudioFileClip "notes.txt" (Raise (MediaError "no audio stream"))].
Proof.
  pose proof (audio_open_failure
                (scripted_world (Raise (MediaError "no audio stream"))
                   None WithAudioCopy None)
                "cover.png" "notes.txt" "video.mp4" 24
                (MediaError "no audio stream") eq_refl eq_refl eq_refl) as K.
  exact (conj (proj1 K) (proj1 (proj2 K))).
Defined.

(** X4. When [ImageClip] raises, [make_video] raises that exception; the
    audio clip, the one handle open at that point, is closed, and neither
    [with_audio] nor [write_videofile] is called. *)
Theorem image_open_failure w image_path audio_path output_path fps d e :
  path_exists w image_path = true ->
  path_exists w audio_path = true ->
  open_audio w audio_path = Ok (Some d) ->
  zero_or_negative d = false ->
  open_image w image_path d = Some e ->
  let r := run w image_path audio_path output_path fps in
  fst r = Raise e
  /\ media_calls (trace (snd r))
     = [EvAudioFileClip audio_path (Ok 0);
        EvImageClip image_path d (Raise e);
        EvClose 0].
Proof. intros Hi Ha Hopen Hd Him r; subst r; exec; settle. Qed.

Lemma image_open_failure_witness :
  zero_or_negative five_seconds = false
  /\ fst (run bad_image_world "cover.png" "song.mp3" "video.mp4" 24)
     = Raise (MediaError "cannot identify image file")
  /\ media_calls
       (trace (snd (run bad_image_world "cover.png" "song.mp3" "video.mp4"
                      24)))
     = [EvAudioFileClip "song.mp3" (Ok 0);
        EvImageClip "cover.png" five_seconds
          (Raise (MediaError "cannot identify image file"));
        EvClose 0].
Proof.
  split; [reflexivity|].
  exact (image_open_failure bad_image_world
           "cover.png" "song.mp3" "video.mp4" 24 five_seconds
           (MediaError "cannot identify image file")
           eq_refl eq_refl eq_refl eq_refl eq_refl).
Defined.

(** X5. When [with_audio] raises, [make_video] raises that exception; the
    audio clip and the image clip are closed, in that order, [final_clip]
    is still unset, and [write_videofile] is not called. *)
Theorem attach_failure w image_path audio_path output_path fps d e :
  path_exists w image_path = true ->
  path_exists w audio_path = true ->
  open_audio w audio_path = Ok (Some d) ->
  zero_or_negative d = false ->
  open_image w image_path d = None ->
  attach_audio w 1 0 = WithAudioRaises e ->
  let r := run w image_path audio_path output_path fps in
  fst r = Raise e
  /\ final_clip (snd r) = None
  /\ media_calls (trace (snd r))
     = [EvAudioFileClip audio_path (Ok 0);
        EvImageClip image_path d (Ok 1);
        EvWithAudio 1 0 (Raise e);
        EvClose 0; EvClose 1].
Proof. intros Hi Ha Hopen Hd Him Hat r; subst r; exec; settle. Qed.

Lemma attach_failure_witness :
  zero_or_negative five_seconds = false
  /\ fst (run (scripted_world (Ok (Some five_seconds)) None
                 (WithAudioRaises (MediaError "no audio")) None)
            "cover.png" "song.mp3" "video.mp4" 24)
     = Raise (MediaError "no audio")
  /\ final_clip
       (snd (run (scripted_world (Ok (Some five_seconds)) None
                    (WithAudioRaises (MediaError "no audio")) None)
               "cover.png" "song.mp3" "video.mp4" 24))
     = None.
Proof.
  split; [reflexivity|].
  pose proof (attach_failure
                (scripted_world (Ok (Some five_seconds)) None
                   (WithAudioRaises (MediaError "no audio")) None)
                "cover.png" "song.mp3" "video.mp4" 24 five_seconds
                (MediaError "no audio")
                eq_refl eq_refl eq_refl eq_refl eq_refl eq_refl) as K.
  exact (conj (proj1 K) (proj1 (proj2 K))).
Defined.

(** X6. When [write_videofile] raises (with a [with_audio] that returns a
    copy), [make_video] raises that exception; the three clips are closed,
    audio first, then image, then the combined clip, and the line that
    reports success is not printed. *)
Theorem encoder_failure w image_path audio_path output_path fps d e :
  path_exists w image_path = true ->
  path_exists w audio_path = true ->
  open_audio w audio_path = Ok (Some d) ->
  zero_or_negative d = false ->
  open_image w image_path d = None ->
  attach_audio w 1 0 = WithAudioCopy ->
  encode w 2 output_path fps "libx264" "aac" "bar"
    (temp_audiofile_path output_path) = Some e ->
  let r := run w image_path audio_path output_path fps in
  fst r = Raise e
  /\ media_calls (trace (snd r))
     = [EvAudioFileClip audio_path (Ok 0);
        EvImageClip image_path d (Ok 1);
        EvWithAudio 1 0 (Ok 2);
        EvWriteVideofile 2 output_path fps "libx264" "aac" "bar"
          (temp_audiofile_path output_path) (Raise e);
        EvClose 0; EvClose 1; EvClose 2]
  /\ ~ In (EvPrint (MsgCreated output_path)) (trace (snd r)).
Proof.
  intros Hi Ha Hopen Hd Him Hat Hen r; subst r; exec; kill_float;
    try congruence; merge_answers; read_trace; (split; [|split]);
    try reflexivity.
  cbn [In]. intros H. break_or; discriminate.
Qed.

Lemma encoder_failure_witness :
  zero_or_negative five_seconds = false
  /\ fst (run (scripted_world (Ok (Some five_seconds)) None WithAudioCopy
                 (Some (MediaError "disk full")))
            "cover.png" "song.mp3" "video.mp4" 24)
     = Raise (MediaError "disk full")
  /\ ~ In (EvPrint (MsgCreated "video.mp4"))
         (trace (snd (run (scripted_world (Ok (Some five_seconds)) None
                             WithAudioCopy (Some (MediaError "disk full")))
                        "cover.png" "song.mp3" "video.mp4" 24))).
Proof.
  split; [reflexivity|].
  pose proof (encoder_failure
                (scripted_world (Ok (Some five_seconds)) None WithAudioCopy
                   (Some (MediaError "disk full")))
                "cover.png" "song.mp3" "video.mp4" 24 five_seconds
                (MediaError "disk full")
                eq_refl eq_refl eq_refl eq_refl eq_refl eq_refl eq_refl) as K.
  exact (conj (proj1 K) (proj2 (proj2 K))).
Defined.

(** X7. [make_video] returns normally exactly when its trace holds a
    [write_videofile] call that returned: there is no success without the
    encoder having run to its end, and no failure after it has. *)
Theorem success_iff_encoder_returned w image_path audio_path output_path fps :
  let r := run w image_path audio_path output_path fps in
  fst r = Ok tt
  <-> exists h,
        In (EvWriteVideofile h output_path fps "libx264" "aac" "bar"
              (temp_audiofile_path output_path) (Ok tt))
          (trace (snd r)).
Proof.
  exec; (split; [intros H; try discriminate; eexists; in_list|]);
    intros [h H]; cbn [In] in H; break_or; try discriminate; reflexivity.
Qed.

(** X8. What is printed tells the outcome: the line that reports success
    is in the output exactly when the call returns normally, and the error
    line and the traceback of an exception are in the output exactly when
    the call raises that exception. *)
Theorem printed_outcome w image_path audio_path output_path fps :
  let r := run w image_path audio_path output_path fps in
  (In (EvPrint (MsgCreated output_path)) (trace (snd r)) <-> fst r = Ok tt)
  /\ (forall e,
        In (EvPrint (MsgError e)) (trace (snd r)) <-> fst r = Raise e)
  /\ (forall e, In (EvPrintExc e) (trace (snd r)) <-> fst r = Raise e).
Proof.
  exec; (split; [|split]); try intros e0; cbn [In];
    (split;
     [ intros H; break_or; try discriminate;
       first [reflexivity | injection H as <-; reflexivity]
     | intros H; try discriminate; try injection H as <-;
       repeat (first [left; reflexivity|right]) ]).
Qed.

(** X9. Once the script has closed a handle it makes no other call and
    prints nothing: from the first [close] on, the trace consists of
    [close] events only.  So no handle is used after its release. *)
Theorem nothing_after_first_close w image_path audio_path output_path fps :
  forallb is_close
    (from_first_close
       (trace (snd (run w image_path audio_path output_path fps))))
  = true.
Proof. exec; reflexivity. Qed.

(** X10. The order of the moviepy calls of a successful run: the audio is
    opened, the image clip is built with the audio's duration, the audio is
    attached, the result is encoded, and then the handles are closed in the
    order audio, image, combined. *)
Theorem calls_of_a_successful_run w image_path audio_path output_path fps s :
  run w image_path audio_path output_path fps = (Ok tt, s) ->
  exists d ha hi hf,
    open_audio w audio_path = Ok (Some d)
    /\ zero_or_negative d = false
    /\ media_calls (trace s)
       = [EvAudioFileClip audio_path (Ok ha);
          EvImageClip image_path d (Ok hi);
          EvWithAudio hi ha (Ok hf);
          EvWriteVideofile hf output_path fps "libx264" "aac" "bar"
            (temp_audiofile_path output_path) (Ok tt);
          EvClose ha; EvClose hi; EvClose hf].
Proof.
  exec; intros H; try discriminate; injection H as <-; kill_float;
    match goal with
    | E : open_audio _ _ = Ok (Some ?d) |- _ => exists d, 0, 1
    end;
    [exists 2|exists 1]; read_trace; repeat split; assumption.
Qed.

Lemma calls_of_a_successful_run_witness :
  run (happy_world five_seconds WithAudioCopy)
    "cover.png" "song.mp3" "out/video.mp4" 24
  = (Ok tt, snd happy_run)
  /\ exists d ha hi hf,
      open_audio (happy_world five_seconds WithAudioCopy) "song.mp3"
      = Ok (Some d)
      /\ zero_or_negative d = false
      /\ media_calls (trace (snd happy_run))
         = [EvAudioFileClip "song.mp3" (Ok ha);
            EvImageClip "cover.png" d (Ok hi);
            EvWithAudio hi ha (Ok hf);
            EvWriteVideofile hf "out/video.mp4" 24 "libx264" "aac" "bar"
              (temp_audiofile_path "out/video.mp4") (Ok tt);
            EvClose ha; EvClose hi; EvClose hf].
Proof.
  assert (H : run (happy_world five_seconds WithAudioCopy)
                "cover.png" "song.mp3" "out/video.mp4" 24
              = (Ok tt, snd happy_run))
    by (vm_compute; reflexivity).
  split; [exact H|].
  exact (calls_of_a_successful_run (happy_world five_seconds WithAudioCopy)
           "cover.png" "song.mp3" "out/video.mp4" 24 (snd happy_run) H).
Defined.

(** X11. The only paths whose existence [make_video] asks for are the
    image path and the audio path: two disks that agree on these two (and
    on what moviepy answers) give the same run.  In particular neither the
    output file nor its directory is looked at before the encoder is
    called. *)
Theorem only_the_inputs_are_looked_up w w' image_path audio_path output_path
    fps :
  path_exists w' image_path = path_exists w image_path ->
  path_exists w' audio_path = path_exists w audio_path ->
  (forall p, open_audio w' p = open_audio w p) ->
  (forall p d, open_image w' p d = open_image w p d) ->
  (forall x y, attach_audio w' x y = attach_audio w x y) ->
  (forall h f n c ac lg t, encode w' h f n c ac lg t = encode w h f n c ac lg t) ->
  run w' image_path audio_path output_path fps
  = run w image_path audio_path output_path fps.
Proof.
  intros Hi Ha Hau Him Hat Hen. unfold_script.
  rewrite Hi, Ha, Hau.
  destruct (path_exists w image_path); unfold_script; [|reflexivity].
  destruct (path_exists w audio_path); unfold_script; [|reflexivity].
  destruct (open_audio w audio_path) as [[d|]|e]; unfold_script;
    try reflexivity.
  destruct (SFleb d float_zero); unfold_script; [reflexivity|].
  rewrite Him.
  destruct (open_image w image_path d); unfold_script; [reflexivity|].
  rewrite Hat.
  destruct (attach_audio w 1 0); unfold_script; try reflexivity;
    rewrite Hen;
    match goal with
    | |- context [encode w ?h ?f ?n ?c ?ac ?lg ?t] =>
        destruct (encode w h f n c ac lg t)
    end; reflexivity.
Qed.

Lemma only_the_inputs_are_looked_up_witness :
  path_exists inputs_only_world "out/video.mp4" = false
  /\ path_exists inputs_only_world "out" = false
  /\ run inputs_only_world "cover.png" "song.mp3" "out/video.mp4" 24
     = run (happy_world five_seconds WithAudioCopy)
         "cover.png" "song.mp3" "out/video.mp4" 24.
Proof.
  split; [reflexivity|]. split; [reflexivity|].
  exact (only_the_inputs_are_looked_up
           (happy_world five_seconds WithAudioCopy) inputs_only_world
           "cover.png" "song.mp3" "out/video.mp4" 24
           eq_refl eq_refl (fun _ => eq_refl) (fun _ _ => eq_refl)
           (fun _ _ => eq_refl) (fun _ _ _ _ _ _ _ => eq_refl)).
Defined.

(** X12. The exceptions that leave [make_video] are of four kinds and no
    other: the image path does not exist, the audio path does not exist,
    the duration fails the check, or a recorded moviepy call raised that
    very exception. *)
Theorem where_an_exception_comes_from w image_path audio_path output_path
    fps e :
  fst (run w image_path audio_path output_path fps) = Raise e ->
  (path_exists w image_path = false
   /\ e = FileNotFoundError ("Image file not found: " ++ image_path))
  \/ (path_exists w image_path = true
      /\ path_exists w audio_path = false
      /\ e = FileNotFoundError ("Audio file not found: " ++ audio_path))
  \/ (exists duration,
        open_audio w audio_path = Ok duration
        /\ duration_invalid duration = true
        /\ e = ValueError invalid_duration)
  \/ (exists ev,
        In ev (trace (snd (run w image_path audio_path output_path fps)))
        /\ raised_by ev = Some e).
Proof.
  exec; intros H; try discriminate; injection H as <-.
  all: first
         [ left; split; reflexivity
         | right; left; repeat split; reflexivity
         | right; right; left; eexists; split;
           [ reflexivity
           | split; [simpl; first [assumption|reflexivity]|reflexivity] ]
         | right; right; right; pick_event ].
Qed.

Lemma where_an_exception_comes_from_witness :
  fst (run bad_image_world "cover.png" "song.mp3" "video.mp4" 24)
  = Raise (MediaError "cannot identify image file")
  /\ ((path_exists bad_image_world "cover.png" = false
       /\ MediaError "cannot identify image file"
          = FileNotFoundError ("Image file not found: " ++ "cover.png"))
      \/ (path_exists bad_image_world "cover.png" = true
          /\ path_exists bad_image_world "song.mp3" = false
          /\ MediaError "cannot identify image file"
             = FileNotFoundError ("Audio file not found: " ++ "song.mp3"))
      \/ (exists duration,
            open_audio bad_image_world "song.mp3" = Ok duration
            /\ duration_invalid duration = true
            /\ MediaError "cannot identify image file"
               = ValueError invalid_duration)
      \/ (exists ev,
            In ev (trace (snd (run bad_image_world "cover.png" "song.mp3"
                                 "video.mp4" 24)))
            /\ raised_by ev = Some (MediaError "cannot identify image file"))).
Proof.
  assert (H : fst (run bad_image_world "cover.png" "song.mp3" "video.mp4" 24)
              = Raise (MediaError "cannot identify image file"))
    by (vm_compute; reflexivity).
  split; [exact H|].
  exact (where_an_exception_comes_from bad_image_world
           "cover.png" "song.mp3" "video.mp4" 24
           (MediaError "cannot identify image file") H).
Defined.

(** ** Further properties of the temporary path *)

Lemma startswith_substring (x : ascii) (n : nat) (p : string) :
  posixpath.startswith x (substring 0 n p)
  = match n with 0 => false | S _ => posixpath.startswith x p end.
Proof. destruct p as [|a r], n; reflexivity. Qed.

Lemma startswith_rstrip (x c : ascii) (p : string) :
  posixpath.is_empty (posixpath.rstrip c p) = false ->
  posixpath.startswith x (posixpath.rstrip c p) = posixpath.startswith x p.
Proof.
  destruct p as [|a r]; [discriminate|]. simpl.
  destruct (posixpath.rstrip c r); [|reflexivity].
  now destruct (Ascii.eqb a c).
Qed.

Lemma startswith_append (x : ascii) (a b : string) :
  posixpath.is_empty a = false ->
  posixpath.startswith x (a ++ b) = posixpath.startswith x a.
Proof. now destruct a. Qed.

Lemma isabs_dirname (o : string) : isabs (posixpath.dirname o) = isabs o.
Proof.
  unfold isabs, posixpath.dirname. cbv zeta.
  set (head := posixpath.slice_to (posixpath.rfind posixpath.sep o + 1) o).
  assert (Hhead : posixpath.startswith posixpath.sep head
                  = posixpath.startswith posixpath.sep o).
  { unfold head, posixpath.slice_to. rewrite startswith_substring.
    destruct (Z.to_nat (posixpath.rfind posixpath.sep o + 1)) eqn:E;
      [|reflexivity].
    pose proof (rfind_lower posixpath.sep o).
    assert (Hr : posixpath.rfind posixpath.sep o = (-1)%Z) by lia.
    symmetry. now apply rfind_startswith. }
  destruct (posixpath.is_empty head) eqn:Hn; simpl; [exact Hhead|].
  destruct (posixpath.all_char posixpath.sep head) eqn:Hall; simpl;
    [exact Hhead|].
  rewrite <- Hhead. apply startswith_rstrip.
  now apply rstrip_shape.
Qed.

(** X13. The temporary audio file can be the same path as another file of
    the call (the output file, or an input) only if that file's last
    component is "temp_processing_audio.mp4"; and for an output path that
    is itself such a temporary path the two do coincide. *)
Theorem temp_path_coincidence (output_path : string) :
  (forall p,
      posixpath.basename p <> "temp_processing_audio.mp4" ->
      temp_audiofile_path output_path <> p)
  /\ temp_audiofile_path (temp_audiofile_path output_path)
     = temp_audiofile_path output_path.
Proof.
  split.
  - intros p Hp Heq. apply Hp. rewrite <- Heq.
    apply basename_temp_audiofile_path.
  - unfold temp_audiofile_path at 1.
    now rewrite dirname_temp_audiofile_path.
Qed.

Lemma temp_path_coincidence_witness :
  posixpath.basename "out/video.mp4" <> "temp_processing_audio.mp4"
  /\ temp_audiofile_path "out/video.mp4" <> "out/video.mp4".
Proof.
  assert (H : posixpath.basename "out/video.mp4"
              <> "temp_processing_audio.mp4")
    by (vm_compute; discriminate).
  split; [exact H|].
  exact (proj1 (temp_path_coincidence "out/video.mp4") "out/video.mp4" H).
Defined.

(** X14. The temporary path is absolute exactly when the output path is:
    a relative output path gives a relative temporary path. *)
Theorem temp_path_absolute_like_output (output_path : string) :
  isabs (temp_audiofile_path output_path) = isabs output_path.
Proof.
  rewrite <- (isabs_dirname output_path).
  unfold temp_audiofile_path, isabs.
  destruct (join_dirname_cases output_path temp_audio_name eq_refl)
    as [[Hd ->]|[(q & Hq & Ha & ->)|(Hn & He & ->)]].
  - now rewrite Hd.
  - rewrite (append_snoc q temp_audio_name posixpath.sep), <- Hq.
    apply startswith_append.
    rewrite Hq. now destruct q.
  - now apply startswith_append.
Qed.
